(** * Sync strategies of [awscli/customizations/s3/syncstrategy/base.py]

    A shallow embedding of the sync-decision code: the comparators
    [compare_size], [compare_time] and [compare_acl] of [BaseSync], the
    strategy classes [SizeAndLastModifiedSync], [NeverSync] and
    [MissingFileSync], construction with its [sync_type] check, and
    [use_sync_strategy].

    Conventions of the embedding.
    - A Python reference that may be [None] is an [option]; reading an
      attribute of [None] raises [AttributeError].
    - A call that may raise returns a [pyresult]; calls are sequenced with
      [x ← c; k], which stops at the first exception, as Python does.
    - A dict with a fixed set of string keys (an S3 ACL response, a grant,
      an [ARGUMENT] descriptor) is a record whose fields are options:
      [None] stands for a missing key.  The CLI parameter dict, whose keys
      are open, is a [gmap string PyValue].
    - [LOG.debug] only hands its arguments to the logging module; the
      embedding evaluates these arguments (they may raise) and keeps no
      trace of the message. *)

From Stdlib Require Import ZArith QArith Lia List Bool Ascii String.
From stdpp Require Import base option strings gmap sorting.
Import ListNotations.

Local Open Scope string_scope.
Local Open Scope list_scope.
Local Open Scope Z_scope.

(** ** Exceptions and results *)

Inductive exn : Type :=
  | AttributeError
  | KeyError
  | IndexError
  | TypeError
  | ValueError (sync_type : string)
  | NotImplementedError (what : string).

Inductive pyresult (A : Type) : Type :=
  | Ok (a : A)
  | Raise (e : exn).

Arguments Ok {A} a.
Arguments Raise {A} e.

Definition pybind {A B : Type} (c : pyresult A) (k : A -> pyresult B)
  : pyresult B :=
  match c with
  | Ok a => k a
  | Raise e => Raise e
  end.

#[global] Instance pyresult_ret : MRet pyresult := @Ok.
#[global] Instance pyresult_bind : MBind pyresult :=
  fun A B k c => pybind c k.

Definition raises {A : Type} (c : pyresult A) : Prop :=
  exists e, c = Raise e.

(** [obj.attr] where [obj] may be [None]. *)
Definition getattr {R A : Type} (obj : option R) (attr : R -> A)
  : pyresult A :=
  match obj with
  | Some r => Ok (attr r)
  | None => Raise AttributeError
  end.

(** [d[key]] on a dict modelled as a record of optional fields. *)
Definition getitem {A : Type} (field : option A) : pyresult A :=
  match field with
  | Some a => Ok a
  | None => Raise KeyError
  end.

(** ** Times

    A [datetime] is its instant, counted in microseconds (the resolution
    of Python's [datetime]).  Subtracting two of them gives a [timedelta],
    which Python keeps normalised: [0 <= seconds < 86400] and
    [0 <= microseconds < 10**6], the sign being carried by [days]. *)

Record datetime : Type := { instant_us : Z }.

Record timedelta : Type := {
  days : Z;
  seconds : Z;
  microseconds : Z
}.

Definition us_per_second : Z := 10 ^ 6.
Definition us_per_day : Z := 24 * 3600 * 10 ^ 6.

Definition timedelta_of_us (n : Z) : timedelta :=
  {| days := n / us_per_day;
     seconds := (n mod us_per_day) / us_per_second;
     microseconds := n mod us_per_second |}.

(** [a - b] on datetimes. *)
Definition datetime_sub (a b : datetime) : timedelta :=
  timedelta_of_us (instant_us a - instant_us b).

(** ** ACL responses *)

Record Owner : Type := {
  owner_ID : option string;
  owner_DisplayName : option string
}.

Record Grantee : Type := {
  grantee_Type : option string;
  grantee_ID : option string;
  grantee_DisplayName : option string;
  grantee_URI : option string;
  grantee_EmailAddress : option string
}.

Record Grant : Type := {
  grant_Grantee : option Grantee;
  grant_Permission : option string
}.

(** The dict returned by [get_object_acl]: the keys ['Owner'] and
    ['Grants'], and whatever other keys the response carries. *)
Record AclResponse : Type := {
  acl_Owner : option Owner;
  acl_Grants : option (list Grant);
  acl_other_keys : list string
}.

(** Truth value of a dict: it has a key. *)
Definition acl_truthy (d : AclResponse) : bool :=
  match acl_Owner d, acl_Grants d, acl_other_keys d with
  | None, None, [] => false
  | _, _, _ => true
  end.

(** Truth value of [acl_response_data], which is [None] or a dict. *)
Definition acl_data_truthy (d : option AclResponse) : bool :=
  match d with
  | None => false
  | Some r => acl_truthy r
  end.

(** ** File records *)

Record FileStat : Type := {
  src : string;
  dest : string;
  size : Z;
  last_update : datetime;
  operation_name : string;
  acl_response_data : option AclResponse
}.

(** ** SyncResponse *)

Record SyncResponse : Type := {
  sync_object : bool;
  sync_acl : bool
}.

(** [SyncResponse.__bool__] *)
Definition SyncResponse_bool (r : SyncResponse) : bool :=
  sync_object r || sync_acl r.

(** ** Comparators of [BaseSync] *)

(** [total_seconds]: the quotient is Python 3's true division (the module
    relies on [__bool__], the Python 3 truth protocol), taken here as the
    exact rational number; the float Python computes is that rational
    rounded, which has the same sign and is zero in the same cases.  The
    code only compares the result with [0], and so do the theorems below:
    none states the value. *)
Definition total_seconds (td : timedelta) : Q :=
  Qmake (microseconds td + (seconds td + days td * 24 * 3600) * 10 ^ 6)
        (10 ^ 6)%positive.

Definition compare_size (src_file dest_file : option FileStat)
  : pyresult bool :=
  a ← getattr src_file size;
  b ← getattr dest_file size;
  Ok (a =? b)%Z.

(** The result is [Some true], [Some false], or [None] when the function
    falls off its end and so returns Python's [None]. *)
Definition compare_time (src_file dest_file : option FileStat)
  : pyresult (option bool) :=
  src_time ← getattr src_file last_update;
  dest_time ← getattr dest_file last_update;
  let delta := datetime_sub dest_time src_time in
  cmd ← getattr src_file operation_name;
  if (cmd =? "upload")%string || (cmd =? "copy")%string then
    if Qle_bool 0 (total_seconds delta) then Ok (Some true)
    else Ok (Some false)
  else if (cmd =? "download")%string then
    if Qle_bool (total_seconds delta) 0 then Ok (Some true)
    else Ok (Some false)
  else Ok None.

(** ** ACL comparison *)

#[global] Instance Owner_eq_dec : EqDecision Owner.
Proof. solve_decision. Defined.
#[global] Instance Grantee_eq_dec : EqDecision Grantee.
Proof. solve_decision. Defined.
#[global] Instance Grant_eq_dec : EqDecision Grant.
Proof. solve_decision. Defined.

(** [x.get('Permission', '')] *)
Definition get_Permission (x : Grant) : string :=
  default "" (grant_Permission x).

(** [l.sort(key=lambda x: x.get('Permission', ''))]: Python's sort is
    stable, so a grant is inserted before the first grant whose key is not
    smaller than its own. *)
Fixpoint insert_by_Permission (x : Grant) (l : list Grant) : list Grant :=
  match l with
  | [] => [x]
  | y :: l' =>
      if String.ltb (get_Permission y) (get_Permission x)
      then y :: insert_by_Permission x l'
      else x :: y :: l'
  end.

Definition sort_by_Permission (l : list Grant) : list Grant :=
  foldr insert_by_Permission [] l.

(** [l[i]] *)
Definition index {A : Type} (l : list A) (i : nat) : pyresult A :=
  match l !! i with
  | Some a => Ok a
  | None => Raise IndexError
  end.

(** [range(n)] *)
Definition range (n : nat) : list nat := seq 0 n.

(** [grant in grants]: list membership by [==]. *)
Definition contains (grant : Grant) (grants : list Grant) : bool :=
  existsb (fun g => bool_decide (grant = g)) grants.

(** The loop over the owner grants; [are_equal] is the variable of the
    source, [indices] what is left of [range(len(src_owner_grants))]. *)
Fixpoint owner_grants_loop (src_owner_grants dest_owner_grants : list Grant)
    (indices : list nat) (are_equal : bool) : pyresult bool :=
  match indices with
  | [] => Ok are_equal
  | i :: indices' =>
      s ← index src_owner_grants i;
      d ← index dest_owner_grants i;
      let src_permission := get_Permission s in
      let dest_permission := get_Permission d in
      let are_equal := (src_permission =? dest_permission)%string in
      if negb are_equal then Ok are_equal
      else owner_grants_loop src_owner_grants dest_owner_grants indices' are_equal
  end.

(** The loop over the other grants of the source. *)
Fixpoint other_grants_loop (src_other_grants dest_other_grants : list Grant)
    (are_equal : bool) : bool :=
  match src_other_grants with
  | [] => are_equal
  | grant :: rest =>
      let are_equal := contains grant dest_other_grants in
      if negb are_equal then are_equal
      else other_grants_loop rest dest_other_grants are_equal
  end.

(** [itemgetter('Owner', 'Grants')] applied to [acl_response_data]. *)
Definition getter (d : option AclResponse) : pyresult (Owner * list Grant) :=
  match d with
  | None => Raise TypeError
  | Some r =>
      o ← getitem (acl_Owner r);
      g ← getitem (acl_Grants r);
      Ok (o, g)
  end.

Definition nonempty {A : Type} (l : list A) : bool :=
  match l with
  | [] => false
  | _ :: _ => true
  end.

Section Code.

(** [awscli.customizations.s3.utils.separate_owner_grants] is imported
    from a module that is not part of the sources at hand; [compare_acl]
    takes it as a parameter. *)
Variable separate_owner_grants :
  list Grant -> string -> list Grant * list Grant.

Definition compare_acl (src_file dest_file : option FileStat)
  : pyresult bool :=
  src_acl ← getattr src_file acl_response_data;
  if negb (acl_data_truthy src_acl) then Ok true else
  dest_acl ← getattr dest_file acl_response_data;
  if negb (acl_data_truthy dest_acl) then Ok true else
  '(src_owner, src_grants) ← getter src_acl;
  '(dest_owner, dest_grants) ← getter dest_acl;
  src_id ← getitem (owner_ID src_owner);
  let '(src_owner_grants, src_other_grants) :=
    separate_owner_grants src_grants src_id in
  dest_id ← getitem (owner_ID dest_owner);
  let '(dest_owner_grants, dest_other_grants) :=
    separate_owner_grants dest_grants dest_id in
  let are_equal := false in
  (* comparing owner permissions *)
  are_equal ←
    (if nonempty src_owner_grants && nonempty dest_owner_grants then
       let are_equal :=
         (length src_owner_grants =? length dest_owner_grants)%nat in
       if are_equal then
         let src_owner_grants := sort_by_Permission src_owner_grants in
         let dest_owner_grants := sort_by_Permission dest_owner_grants in
         owner_grants_loop src_owner_grants dest_owner_grants
           (range (length src_owner_grants)) are_equal
       else Ok are_equal
     else Ok are_equal);
  (* comparing other permissions *)
  if (are_equal : bool) then
    let are_equal :=
      (length src_other_grants =? length dest_other_grants)%nat in
    if are_equal then
      Ok (other_grants_loop src_other_grants dest_other_grants are_equal)
    else Ok are_equal
  else Ok are_equal.

(** ** Strategies

    The classes of the module.  [ARGUMENT] is a class attribute: it is
    [None] in the four classes below, and a subclass that declares a
    command-line flag sets it; the object record carries the value that
    [self.ARGUMENT] reads. *)

Inductive StrategyClass : Type :=
  | BaseSync
  | SizeAndLastModifiedSync
  | NeverSync
  | MissingFileSync.

(** The keys of an [ARGUMENT] dict. *)
Record Argument : Type := {
  argument_name : option string;
  argument_dest : option string;
  argument_action : option string;
  argument_help_text : option string
}.

Record Strategy : Type := {
  strategy_class : StrategyClass;
  ARGUMENT : option Argument;
  _sync_type : string;
  include_acl : bool
}.

Definition VALID_SYNC_TYPES : list string :=
  ["file_at_src_and_dest"; "file_not_at_dest"; "file_not_at_src"].

Definition _check_sync_type (sync_type : string) : pyresult unit :=
  if negb (existsb (String.eqb sync_type) VALID_SYNC_TYPES)
  then Raise (ValueError sync_type)
  else Ok tt.

(** [BaseSync.__init__], run for an object of class [cls]. *)
Definition BaseSync_init (cls : StrategyClass) (argument : option Argument)
    (sync_type : string) : pyresult Strategy :=
  _ ← _check_sync_type sync_type;
  Ok {| strategy_class := cls;
        ARGUMENT := argument;
        _sync_type := sync_type;
        include_acl := false |}.

(** The default value of the [sync_type] parameter of each [__init__]. *)
Definition default_sync_type (cls : StrategyClass) : string :=
  match cls with
  | BaseSync | SizeAndLastModifiedSync => "file_at_src_and_dest"
  | NeverSync => "file_not_at_src"
  | MissingFileSync => "file_not_at_dest"
  end.

(** [cls(sync_type)], or [cls()] when [sync_type] is [None]: the
    [__init__] of [NeverSync] and of [MissingFileSync] pass their
    argument on to [BaseSync.__init__]. *)
Definition new (cls : StrategyClass) (argument : option Argument)
    (sync_type : option string) : pyresult Strategy :=
  BaseSync_init cls argument (default (default_sync_type cls) sync_type).

(** The [sync_type] property. *)
Definition sync_type (self : Strategy) : string := _sync_type self.

(** [not x] on the result of [compare_time]; [None] is false. *)
Definition py_not (x : option bool) : bool :=
  match x with
  | Some b => negb b
  | None => true
  end.

(** [LOG.debug(fmt, args...)]: the arguments are evaluated. *)
Definition LOG_debug {A : Type} (args : pyresult A) : pyresult unit :=
  _ ← args; Ok tt.

Definition SizeAndLastModifiedSync_determine_should_sync
    (src_file dest_file : option FileStat) (include_acl : bool)
  : pyresult SyncResponse :=
  same_size ← compare_size src_file dest_file;
  same_last_modified_time ← compare_time src_file dest_file;
  let object_should_sync :=
    negb same_size || py_not same_last_modified_time in
  _ ← (if object_should_sync then
         LOG_debug (a ← getattr src_file src;
                    b ← getattr src_file dest;
                    c ← getattr src_file size;
                    d ← getattr dest_file size;
                    e ← getattr src_file last_update;
                    f ← getattr dest_file last_update;
                    Ok (a, b, c, d, e, f))
       else Ok tt);
  let acl_should_sync := false in
  acl_should_sync ←
    (if include_acl then
       same_acl ← compare_acl src_file dest_file;
       Ok (negb same_acl)
     else Ok acl_should_sync);
  Ok {| sync_object := object_should_sync; sync_acl := acl_should_sync |}.

Definition NeverSync_determine_should_sync
    (src_file dest_file : option FileStat) (include_acl : bool)
  : pyresult SyncResponse :=
  Ok {| sync_object := false; sync_acl := false |}.

Definition MissingFileSync_determine_should_sync
    (src_file dest_file : option FileStat) (include_acl : bool)
  : pyresult SyncResponse :=
  _ ← LOG_debug (a ← getattr src_file src;
                 b ← getattr src_file dest;
                 Ok (a, b));
  Ok {| sync_object := true; sync_acl := include_acl |}.

(** [self._determine_should_sync], resolved by the class of [self]. *)
Definition _determine_should_sync (self : Strategy)
    (src_file dest_file : option FileStat) (include_acl : bool)
  : pyresult SyncResponse :=
  match strategy_class self with
  | BaseSync => Raise (NotImplementedError "determine_should_sync")
  | SizeAndLastModifiedSync =>
      SizeAndLastModifiedSync_determine_should_sync
        src_file dest_file include_acl
  | NeverSync =>
      NeverSync_determine_should_sync src_file dest_file include_acl
  | MissingFileSync =>
      MissingFileSync_determine_should_sync src_file dest_file include_acl
  end.

Definition determine_should_sync (self : Strategy)
    (src_file dest_file : option FileStat) : pyresult SyncResponse :=
  _determine_should_sync self src_file dest_file (include_acl self).

End Code.

(** ** Strategy selection *)

(** Values found in the parameter dict of the command. *)
Inductive PyValue : Type :=
  | PyNone
  | PyBool (b : bool)
  | PyInt (z : Z)
  | PyStr (s : string).

Definition truthy (v : PyValue) : bool :=
  match v with
  | PyNone => false
  | PyBool b => b
  | PyInt z => negb (z =? 0)%Z
  | PyStr s => negb (s =? "")%string
  end.

(** [s.replace(old, new)] for one-character [old] and [new]. *)
Fixpoint replace (old new : ascii) (s : string) : string :=
  match s with
  | EmptyString => EmptyString
  | String c s' =>
      String (if Ascii.eqb c old then new else c) (replace old new s')
  end.

(** The [arg_name] property. *)
Definition arg_name (self : Strategy) : option string :=
  let name := None in
  match ARGUMENT self with
  | Some argument => argument_name argument
  | None => name
  end.

(** The [arg_dest] property. *)
Definition arg_dest (self : Strategy) : option string :=
  let dest := None in
  match ARGUMENT self with
  | Some argument => argument_dest argument
  | None => dest
  end.

(** [params.get(key)], with [None] for a missing key. *)
Definition params_get (params : gmap string PyValue) (key : string)
  : PyValue :=
  default PyNone (params !! key).

(** The result is [Some self] or [None]. *)
Definition use_sync_strategy (self : Strategy)
    (params : gmap string PyValue) : option Strategy :=
  let name_in_params :=
    match arg_dest self with
    | Some d => Some d
    | None =>
        match arg_name self with
        | Some n => Some (replace "-" "_" n)
        | None => None
        end
    end in
  match name_in_params with
  | Some key => if truthy (params_get params key) then Some self else None
  | None => None
  end.

(** Modelled from the spec: [separate_owner_grants], the partitioning
    helper of [awscli.customizations.s3.utils], whose code is not among the
    sources.  The spec describes it: the owner grants are the grants whose
    grantee ID equals the owner ID, the other grants are all remaining
    grants; both keep the order of the grant list. *)
Definition is_owner_grant (owner_id : string) (grant : Grant) : bool :=
  match grant_Grantee grant with
  | Some grantee => bool_decide (grantee_ID grantee = Some owner_id)
  | None => false
  end.

Definition separate_owner_grants (grants : list Grant) (owner_id : string)
  : list Grant * list Grant :=
  (List.filter (is_owner_grant owner_id) grants,
   List.filter (fun g => negb (is_owner_grant owner_id g)) grants).

(** ** The argument table *)

(** [add_sync_argument]: the table is a list that the method extends in
    place; the result is the table after the call. *)
Definition add_sync_argument (self : Strategy) (arg_table : list Argument)
  : list Argument :=
  match ARGUMENT self with
  | Some argument => arg_table ++ [argument]
  | None => arg_table
  end.

(** ** Sample records and strategies *)

Definition canonical_user (id : string) : Grantee :=
  {| grantee_Type := Some "CanonicalUser";
     grantee_ID := Some id;
     grantee_DisplayName := None;
     grantee_URI := None;
     grantee_EmailAddress := None |}.

Definition grant_to (id permission : string) : Grant :=
  {| grant_Grantee := Some (canonical_user id);
     grant_Permission := Some permission |}.

(** An ACL response owned by ["owner"] with the given grants. *)
Definition acl_of (grants : list Grant) : AclResponse :=
  {| acl_Owner := Some {| owner_ID := Some "owner";
                          owner_DisplayName := None |};
     acl_Grants := Some grants;
     acl_other_keys := ["ResponseMetadata"] |}.

Definition sample_file (operation : string) (bytes : Z) (instant : Z)
    (acl : option AclResponse) : FileStat :=
  {| src := "local/key";
     dest := "bucket/key";
     size := bytes;
     last_update := {| instant_us := instant |};
     operation_name := operation;
     acl_response_data := acl |}.

(** A file whose ACL grants READ to another user and nothing to the
    owner: the ACL that [put-object-acl --grant-read id=reader] leaves. *)
Definition file_without_owner_grant : FileStat :=
  sample_file "upload" 100 0 (Some (acl_of [grant_to "reader" "READ"])).

Definition strategy_of (cls : StrategyClass) (acl : bool) : Strategy :=
  {| strategy_class := cls;
     ARGUMENT := None;
     _sync_type := default_sync_type cls;
     include_acl := acl |}.

(** A strategy that declares the flag [--my-flag]. *)
Definition my_flag_strategy : Strategy :=
  {| strategy_class := SizeAndLastModifiedSync;
     ARGUMENT := Some {| argument_name := Some "my-flag";
                         argument_dest := None;
                         argument_action := Some "store_true";
                         argument_help_text := None |};
     _sync_type := "file_at_src_and_dest";
     include_acl := false |}.

(** The ACL response has all that [compare_acl] reads from it: ['Owner']
    with an ['ID'], and ['Grants']. *)
Definition acl_complete (d : AclResponse) : bool :=
  match acl_Owner d, acl_Grants d with
  | Some owner, Some _ => bool_decide (is_Some (owner_ID owner))
  | _, _ => false
  end.

(** A file owned by ["owner"] with the given grants. *)
Definition file_with_grants (grants : list Grant) : FileStat :=
  sample_file "upload" 100 0 (Some (acl_of grants)).

(** * Properties *)

(** ** Times *)

Lemma timedelta_of_us_normalised (n : Z) :
  0 <= seconds (timedelta_of_us n) < 24 * 3600 /\
  0 <= microseconds (timedelta_of_us n) < 10 ^ 6.
Proof.
  unfold timedelta_of_us, us_per_day, us_per_second; simpl.
  change (24 * 3600 * 10 ^ 6) with 86400000000.
  change (10 ^ 6) with 1000000.
  split.
  - pose proof (Z.mod_pos_bound n 86400000000 eq_refl) as Hm.
    split.
    + apply Z.div_pos; lia.
    + apply Z.div_lt_upper_bound; lia.
  - apply Z.mod_pos_bound; reflexivity.
Qed.

(** Putting the three fields of a normalised difference together again
    gives the difference in microseconds. *)
Lemma timedelta_of_us_total (n : Z) :
  let td := timedelta_of_us n in
  microseconds td + (seconds td + days td * 24 * 3600) * 10 ^ 6 = n.
Proof.
  unfold timedelta_of_us, us_per_day, us_per_second; simpl.
  change (24 * 3600 * 10 ^ 6) with 86400000000.
  change (10 ^ 6) with 1000000.
  pose proof (Z.div_mod n 86400000000 ltac:(lia)) as Hday.
  pose proof (Z.div_mod (n mod 86400000000) 1000000 ltac:(lia)) as Hsec.
  assert (Hus : (n mod 86400000000) mod 1000000 = n mod 1000000).
  { apply Z.mod_mod_divide. exists 86400. reflexivity. }
  rewrite Hus in Hsec. lia.
Qed.

Lemma total_seconds_nonneg (a b : datetime) :
  Qle_bool 0 (total_seconds (datetime_sub a b))
  = (0 <=? instant_us a - instant_us b).
Proof.
  unfold total_seconds, datetime_sub, Qle_bool; cbn [Qnum Qden].
  rewrite (timedelta_of_us_total (instant_us a - instant_us b)).
  f_equal; lia.
Qed.

Lemma total_seconds_nonpos (a b : datetime) :
  Qle_bool (total_seconds (datetime_sub a b)) 0
  = (instant_us a - instant_us b <=? 0).
Proof.
  unfold total_seconds, datetime_sub, Qle_bool; cbn [Qnum Qden].
  rewrite (timedelta_of_us_total (instant_us a - instant_us b)).
  f_equal; lia.
Qed.

Ltac py_simpl :=
  cbn [mbind pyresult_bind pybind mret pyresult_ret getattr getitem
       LOG_debug].

(** ** Time comparison *)

(** On two present records [compare_time] is decided by the operation of
    the source record and the sign of the difference of the instants. *)
Lemma compare_time_eq (src_file dest_file : FileStat) :
  let delta :=
    instant_us (last_update dest_file) - instant_us (last_update src_file) in
  let cmd := operation_name src_file in
  compare_time (Some src_file) (Some dest_file) =
  Ok (if (cmd =? "upload")%string || (cmd =? "copy")%string
      then Some (0 <=? delta)
      else if (cmd =? "download")%string then Some (delta <=? 0)
      else None).
Proof.
  unfold compare_time; py_simpl.
  rewrite total_seconds_nonneg, total_seconds_nonpos.
  destruct (_ || _).
  - destruct (0 <=? _); reflexivity.
  - destruct (_ =? "download")%string; [|reflexivity].
    destruct (_ <=? 0); reflexivity.
Qed.

(** C4: with operation upload or copy, [compare_time] returns true iff the
    destination instant minus the source instant is [>= 0]; with operation
    download, iff it is [<= 0]. *)
Theorem compare_time_polarity (src_file dest_file : FileStat) :
  let delta :=
    instant_us (last_update dest_file) - instant_us (last_update src_file) in
  (operation_name src_file = "upload" \/ operation_name src_file = "copy" ->
   (compare_time (Some src_file) (Some dest_file) = Ok (Some true)
    <-> delta >= 0)) /\
  (operation_name src_file = "download" ->
   (compare_time (Some src_file) (Some dest_file) = Ok (Some true)
    <-> delta <= 0)).
Proof.
  intros delta. rewrite compare_time_eq. fold delta.
  split.
  - intros [-> | ->]; cbn [String.eqb Ascii.eqb Bool.eqb orb];
      destruct (Z.leb_spec 0 delta); split; intros Hres;
      try reflexivity; try lia; inversion Hres.
  - intros ->; cbn [String.eqb Ascii.eqb Bool.eqb orb];
      destruct (Z.leb_spec delta 0); split; intros Hres;
      try reflexivity; try lia; inversion Hres.
Qed.

(** C10: [compare_time] returns a boolean when the operation is upload,
    copy or download, and returns no value ([None]) for any other
    operation. *)
Theorem compare_time_boolean_iff_known_operation
    (src_file dest_file : FileStat) :
  let cmd := operation_name src_file in
  (cmd = "upload" \/ cmd = "copy" \/ cmd = "download" ->
   exists b : bool,
     compare_time (Some src_file) (Some dest_file) = Ok (Some b)) /\
  (cmd <> "upload" /\ cmd <> "copy" /\ cmd <> "download" ->
   compare_time (Some src_file) (Some dest_file) = Ok None).
Proof.
  intros cmd. rewrite compare_time_eq. fold cmd.
  split.
  - intros [-> | [-> | ->]]; cbn [String.eqb Ascii.eqb Bool.eqb orb];
      eexists; reflexivity.
  - intros (Hu & Hc & Hd).
    apply String.eqb_neq in Hu, Hc, Hd. rewrite Hu, Hc, Hd. reflexivity.
Qed.

Lemma compare_time_polarity_witness :
  (compare_time (Some (sample_file "upload" 1 10 None))
                (Some (sample_file "upload" 1 10 None)) = Ok (Some true)
   <-> 10 - 10 >= 0) /\
  (compare_time (Some (sample_file "download" 1 10 None))
                (Some (sample_file "download" 1 25 None)) = Ok (Some true)
   <-> 25 - 10 <= 0).
Proof.
  split.
  - apply (proj1 (compare_time_polarity
                    (sample_file "upload" 1 10 None)
                    (sample_file "upload" 1 10 None))).
    left; reflexivity.
  - apply (proj2 (compare_time_polarity
                    (sample_file "download" 1 10 None)
                    (sample_file "download" 1 25 None))).
    reflexivity.
Defined.

Lemma compare_time_boolean_iff_known_operation_witness :
  (exists b : bool,
     compare_time (Some (sample_file "copy" 1 10 None))
                  (Some (sample_file "copy" 1 3 None)) = Ok (Some b)) /\
  compare_time (Some (sample_file "delete" 1 10 None))
               (Some (sample_file "delete" 1 3 None)) = Ok None.
Proof.
  split.
  - apply (proj1 (compare_time_boolean_iff_known_operation
                    (sample_file "copy" 1 10 None)
                    (sample_file "copy" 1 3 None))).
    right; left; reflexivity.
  - apply (proj2 (compare_time_boolean_iff_known_operation
                    (sample_file "delete" 1 10 None)
                    (sample_file "delete" 1 3 None))).
    repeat split; discriminate.
Defined.

(** ** Strategies *)

Section Decisions.

Variable separate : list Grant -> string -> list Grant * list Grant.

(** On two present records the decision of [SizeAndLastModifiedSync] is
    computed from the three comparators, and nothing but the ACL comparison
    can raise. *)
Lemma SizeAndLastModifiedSync_eq (src_file dest_file : FileStat)
    (acl : bool) :
  SizeAndLastModifiedSync_determine_should_sync separate
    (Some src_file) (Some dest_file) acl =
  match compare_size (Some src_file) (Some dest_file),
        compare_time (Some src_file) (Some dest_file) with
  | Ok same_size, Ok same_time =>
      acl_should_sync ←
        (if acl then
           same_acl ← compare_acl separate (Some src_file) (Some dest_file);
           Ok (negb same_acl)
         else Ok false);
      Ok {| sync_object := negb same_size || py_not same_time;
            sync_acl := acl_should_sync |}
  | Raise e, _ | _, Raise e => Raise e
  end.
Proof.
  unfold SizeAndLastModifiedSync_determine_should_sync.
  rewrite compare_time_eq.
  unfold compare_size; py_simpl.
  destruct (negb _ || py_not _); reflexivity.
Qed.

(** C3: for two present records the decision of [SizeAndLastModifiedSync]
    has [should_transfer = not compare_size or not compare_time], where
    [not] is Python's on the values [True], [False] and [None] that
    [compare_time] can return: it is false exactly when [compare_size] and
    [compare_time] both return true.  When the sizes differ it is true
    whatever the times.  The call returns unless the ACL comparison, asked
    for by [include_acl], raises. *)
Theorem SizeAndLastModifiedSync_should_transfer
    (self : Strategy) (src_file dest_file : FileStat) :
  strategy_class self = SizeAndLastModifiedSync ->
  exists (same_size : bool) (same_time : option bool),
    compare_size (Some src_file) (Some dest_file) = Ok same_size /\
    compare_time (Some src_file) (Some dest_file) = Ok same_time /\
    match determine_should_sync separate self
            (Some src_file) (Some dest_file) with
    | Ok response =>
        sync_object response
        = negb same_size
          || match same_time with
             | Some true => false
             | Some false => true
             | None => true
             end /\
        (sync_object response = false <->
         same_size = true /\ same_time = Some true) /\
        (size src_file <> size dest_file -> sync_object response = true)
    | Raise e =>
        include_acl self = true /\
        compare_acl separate (Some src_file) (Some dest_file) = Raise e
    end.
Proof.
  intros Hcls.
  unfold determine_should_sync, _determine_should_sync. rewrite Hcls.
  rewrite SizeAndLastModifiedSync_eq, compare_time_eq.
  unfold compare_size; py_simpl.
  set (same_size := (size src_file =? size dest_file)%Z).
  set (same_time :=
         if (operation_name src_file =? "upload")%string
            || (operation_name src_file =? "copy")%string
         then Some (0 <=? instant_us (last_update dest_file)
                          - instant_us (last_update src_file))
         else if (operation_name src_file =? "download")%string
              then Some (instant_us (last_update dest_file)
                         - instant_us (last_update src_file) <=? 0)
              else None).
  exists same_size, same_time.
  split; [reflexivity | split; [reflexivity |]].
  assert (Hobj :
            negb same_size || py_not same_time
            = negb same_size
              || match same_time with
                 | Some true => false
                 | Some false => true
                 | None => true
                 end)
    by (unfold py_not; destruct same_time as [[|] |]; reflexivity).
  assert (Hfalse :
            negb same_size || py_not same_time = false <->
            same_size = true /\ same_time = Some true).
  { unfold py_not. destruct same_size, same_time as [[|] |]; cbn;
      split; try (intros H; discriminate H); try (intros [H1 H2]);
      try discriminate; auto. }
  assert (Hsize :
            size src_file <> size dest_file ->
            negb same_size || py_not same_time = true).
  { intros Hne. apply Z.eqb_neq in Hne. unfold same_size.
    rewrite Hne. reflexivity. }
  destruct (include_acl self); py_simpl.
  - destruct (compare_acl separate _ _) as [same_acl | e]; py_simpl.
    + cbn [sync_object]. auto.
    + split; reflexivity.
  - cbn [sync_object]. auto.
Qed.

(** C5: when the ACL data of either record is absent ([None], or a dict
    without keys), [compare_acl] returns true and raises nothing. *)
Theorem compare_acl_missing_data (src_file dest_file : FileStat) :
  acl_data_truthy (acl_response_data src_file) = false \/
  acl_data_truthy (acl_response_data dest_file) = false ->
  compare_acl separate (Some src_file) (Some dest_file) = Ok true.
Proof.
  intros Habsent. unfold compare_acl; py_simpl.
  destruct (acl_data_truthy (acl_response_data src_file)) eqn:Hsrc;
    cbn [negb]; [| reflexivity].
  destruct Habsent as [Habsent | Habsent]; [discriminate |].
  rewrite Habsent. reflexivity.
Qed.

(** C6: [NeverSync] decides [{false, false}] for every pair of inputs,
    present or absent, and every [include_acl]. *)
Theorem NeverSync_never (self : Strategy)
    (src_file dest_file : option FileStat) :
  strategy_class self = NeverSync ->
  determine_should_sync separate self src_file dest_file =
  Ok {| sync_object := false; sync_acl := false |}.
Proof.
  intros Hcls. unfold determine_should_sync, _determine_should_sync.
  rewrite Hcls. reflexivity.
Qed.

(** C7: for a present source and an absent destination [MissingFileSync]
    decides [should_transfer = true] and [should_sync_acl = include_acl]. *)
Theorem MissingFileSync_always (self : Strategy) (src_file : FileStat) :
  strategy_class self = MissingFileSync ->
  determine_should_sync separate self (Some src_file) None =
  Ok {| sync_object := true; sync_acl := include_acl self |}.
Proof.
  intros Hcls. unfold determine_should_sync, _determine_should_sync.
  rewrite Hcls. reflexivity.
Qed.

(** C2, as the code has it: with both records absent the call raises for
    [BaseSync] ([NotImplementedError]), for [SizeAndLastModifiedSync] and
    for [MissingFileSync] ([AttributeError], from reading an attribute of
    the absent source); [NeverSync] checks nothing and returns
    [{false, false}]. *)
Theorem determine_should_sync_both_absent (self : Strategy) :
  determine_should_sync separate self None None =
  match strategy_class self with
  | BaseSync => Raise (NotImplementedError "determine_should_sync")
  | SizeAndLastModifiedSync | MissingFileSync => Raise AttributeError
  | NeverSync => Ok {| sync_object := false; sync_acl := false |}
  end.
Proof.
  unfold determine_should_sync, _determine_should_sync.
  destruct (strategy_class self); reflexivity.
Qed.

End Decisions.

Lemma SizeAndLastModifiedSync_should_transfer_witness :
  (exists (same_size : bool) (same_time : option bool),
     compare_size (Some (sample_file "upload" 100 7 None))
                  (Some (sample_file "upload" 100 7 None)) = Ok same_size /\
     compare_time (Some (sample_file "upload" 100 7 None))
                  (Some (sample_file "upload" 100 7 None)) = Ok same_time /\
     match determine_should_sync separate_owner_grants
             (strategy_of SizeAndLastModifiedSync false)
             (Some (sample_file "upload" 100 7 None))
             (Some (sample_file "upload" 100 7 None)) with
     | Ok response =>
         sync_object response
         = negb same_size
           || match same_time with
              | Some true => false
              | Some false => true
              | None => true
              end /\
         (sync_object response = false <->
          same_size = true /\ same_time = Some true) /\
         (100 <> 100 -> sync_object response = true)
     | Raise e =>
         false = true /\
         compare_acl separate_owner_grants
           (Some (sample_file "upload" 100 7 None))
           (Some (sample_file "upload" 100 7 None)) = Raise e
     end) /\
  (exists (same_size : bool) (same_time : option bool),
     compare_size (Some (sample_file "upload" 100 7 None))
                  (Some (sample_file "upload" 200 7 None)) = Ok same_size /\
     compare_time (Some (sample_file "upload" 100 7 None))
                  (Some (sample_file "upload" 200 7 None)) = Ok same_time /\
     match determine_should_sync separate_owner_grants
             (strategy_of SizeAndLastModifiedSync false)
             (Some (sample_file "upload" 100 7 None))
             (Some (sample_file "upload" 200 7 None)) with
     | Ok response =>
         sync_object response
         = negb same_size
           || match same_time with
              | Some true => false
              | Some false => true
              | None => true
              end /\
         (sync_object response = false <->
          same_size = true /\ same_time = Some true) /\
         (100 <> 200 -> sync_object response = true)
     | Raise e =>
         false = true /\
         compare_acl separate_owner_grants
           (Some (sample_file "upload" 100 7 None))
           (Some (sample_file "upload" 200 7 None)) = Raise e
     end).
Proof.
  split.
  - apply (SizeAndLastModifiedSync_should_transfer separate_owner_grants
             (strategy_of SizeAndLastModifiedSync false)
             (sample_file "upload" 100 7 None)
             (sample_file "upload" 100 7 None)).
    reflexivity.
  - apply (SizeAndLastModifiedSync_should_transfer separate_owner_grants
             (strategy_of SizeAndLastModifiedSync false)
             (sample_file "upload" 100 7 None)
             (sample_file "upload" 200 7 None)).
    reflexivity.
Defined.

Lemma compare_acl_missing_data_witness :
  compare_acl separate_owner_grants
    (Some (sample_file "upload" 1 0 None))
    (Some file_without_owner_grant) = Ok true.
Proof.
  apply (compare_acl_missing_data separate_owner_grants
           (sample_file "upload" 1 0 None) file_without_owner_grant).
  left; reflexivity.
Defined.

Lemma NeverSync_never_witness :
  determine_should_sync separate_owner_grants (strategy_of NeverSync true)
    None (Some file_without_owner_grant) =
  Ok {| sync_object := false; sync_acl := false |}.
Proof.
  apply (NeverSync_never separate_owner_grants (strategy_of NeverSync true)
           None (Some file_without_owner_grant)).
  reflexivity.
Defined.

Lemma MissingFileSync_always_witness :
  determine_should_sync separate_owner_grants
    (strategy_of MissingFileSync true)
    (Some file_without_owner_grant) None =
  Ok {| sync_object := true; sync_acl := true |}.
Proof.
  apply (MissingFileSync_always separate_owner_grants
           (strategy_of MissingFileSync true) file_without_owner_grant).
  reflexivity.
Defined.

(** C2, as stated, fails: [NeverSync] called with both records absent
    returns a response and raises nothing. *)
Lemma NeverSync_both_absent_returns :
  determine_should_sync separate_owner_grants (strategy_of NeverSync false)
    None None = Ok {| sync_object := false; sync_acl := false |} /\
  ~ raises (determine_should_sync separate_owner_grants
              (strategy_of NeverSync false) None None).
Proof.
  split; [reflexivity |].
  intros [e He]. discriminate He.
Qed.

(** ** Construction *)

Lemma valid_sync_type_spec (s : string) :
  existsb (String.eqb s) VALID_SYNC_TYPES = true <-> In s VALID_SYNC_TYPES.
Proof.
  rewrite existsb_exists. split.
  - intros (x & Hin & Heq). apply String.eqb_eq in Heq. now subst.
  - intros Hin. exists s. split; [assumption | apply String.eqb_refl].
Qed.

(** C8: constructing a strategy raises the [ValueError] iff the supplied
    [sync_type] is outside [VALID_SYNC_TYPES]; for a value of that set the
    construction succeeds and the [sync_type] of the strategy is the
    supplied value. *)
Theorem new_checks_sync_type (cls : StrategyClass)
    (argument : option Argument) (s : string) :
  (new cls argument (Some s) = Raise (ValueError s)
   <-> ~ In s VALID_SYNC_TYPES) /\
  (raises (new cls argument (Some s)) <-> ~ In s VALID_SYNC_TYPES) /\
  (In s VALID_SYNC_TYPES ->
   exists self : Strategy,
     new cls argument (Some s) = Ok self /\ sync_type self = s).
Proof.
  unfold new, BaseSync_init, _check_sync_type, raises.
  cbn [from_option id].
  pose proof (valid_sync_type_spec s) as Hspec.
  destruct (existsb (String.eqb s) VALID_SYNC_TYPES); cbn [negb]; py_simpl.
  - assert (Hin : In s VALID_SYNC_TYPES) by (apply Hspec; reflexivity).
    split; [| split].
    + split; [intros He; discriminate He | intros Hnot; contradiction].
    + split; [intros [e He]; discriminate He | intros Hnot; contradiction].
    + intros _. eexists. split; reflexivity.
  - assert (Hnot : ~ In s VALID_SYNC_TYPES).
    { intros Hin. apply Hspec in Hin. discriminate Hin. }
    split; [| split].
    + split; [intros _; exact Hnot | reflexivity].
    + split; [intros _; exact Hnot | intros _; eexists; reflexivity].
    + intros Hin. contradiction.
Qed.

Lemma new_checks_sync_type_witness :
  exists self : Strategy,
    new MissingFileSync None (Some "file_not_at_dest") = Ok self /\
    sync_type self = "file_not_at_dest".
Proof.
  apply (proj2 (proj2 (new_checks_sync_type MissingFileSync None
                         "file_not_at_dest"))).
  right; left; reflexivity.
Defined.

(** Every class can be constructed with its default [sync_type]. *)
Lemma new_default (cls : StrategyClass) (argument : option Argument) :
  exists self : Strategy,
    new cls argument None = Ok self /\
    sync_type self = default_sync_type cls.
Proof.
  destruct cls; eexists; split; reflexivity.
Qed.

(** ** Strategy selection *)

(** C9: a strategy that declares an argument named [n] and no [dest] is
    returned by [use_sync_strategy] when the parameters bind [n], with its
    dashes replaced by underscores, to true; the result is [None] when that
    key is bound to false or is missing. *)
Theorem use_sync_strategy_by_name (self : Strategy) (argument : Argument)
    (n : string) (params : gmap string PyValue) :
  ARGUMENT self = Some argument ->
  argument_name argument = Some n ->
  argument_dest argument = None ->
  (params !! replace "-" "_" n = Some (PyBool true) ->
   use_sync_strategy self params = Some self) /\
  (params !! replace "-" "_" n = Some (PyBool false) \/
   params !! replace "-" "_" n = None ->
   use_sync_strategy self params = None).
Proof.
  intros Harg Hname Hdest.
  unfold use_sync_strategy, arg_dest, arg_name, params_get.
  rewrite Harg, Hdest, Hname.
  split.
  - intros ->. reflexivity.
  - intros [-> | ->]; reflexivity.
Qed.

Lemma use_sync_strategy_by_name_witness :
  (use_sync_strategy my_flag_strategy {[ "my_flag" := PyBool true ]}
   = Some my_flag_strategy) /\
  (use_sync_strategy my_flag_strategy {[ "my_flag" := PyBool false ]}
   = None) /\
  (use_sync_strategy my_flag_strategy {[ "my-flag" := PyBool true ]}
   = None).
Proof.
  pose (argument := {| argument_name := Some "my-flag";
                       argument_dest := None;
                       argument_action := Some "store_true";
                       argument_help_text := None |}).
  split; [| split].
  - apply (proj1 (use_sync_strategy_by_name my_flag_strategy argument
                    "my-flag" {[ "my_flag" := PyBool true ]}
                    eq_refl eq_refl eq_refl)).
    vm_compute. reflexivity.
  - apply (proj2 (use_sync_strategy_by_name my_flag_strategy argument
                    "my-flag" {[ "my_flag" := PyBool false ]}
                    eq_refl eq_refl eq_refl)).
    left. vm_compute. reflexivity.
  - apply (proj2 (use_sync_strategy_by_name my_flag_strategy argument
                    "my-flag" {[ "my-flag" := PyBool true ]}
                    eq_refl eq_refl eq_refl)).
    right. vm_compute. reflexivity.
Defined.

(** ** ACL comparison of a record with itself *)

Lemma contains_spec (grant : Grant) (grants : list Grant) :
  contains grant grants = true <-> In grant grants.
Proof.
  unfold contains. rewrite existsb_exists. split.
  - intros (g & Hin & Heq). apply bool_decide_eq_true in Heq. now subst.
  - intros Hin. exists grant. split; [assumption |].
    apply bool_decide_eq_true. reflexivity.
Qed.

(** Indexing one list on both sides, the owner loop never breaks. *)
Lemma owner_grants_loop_same (l : list Grant) (indices : list nat) :
  Forall (fun i => (i < length l)%nat) indices ->
  owner_grants_loop l l indices true = Ok true.
Proof.
  induction 1 as [| i indices Hi _ IH]; [reflexivity |].
  cbn [owner_grants_loop]. unfold index.
  destruct (lookup_lt_is_Some_2 l i Hi) as [x ->]. py_simpl.
  rewrite String.eqb_refl. cbn [negb]. exact IH.
Qed.

(** The loop over the other grants ends with true when every source grant
    occurs in the destination list. *)
Lemma other_grants_loop_incl (src_other dest_other : list Grant) :
  (forall g, In g src_other -> In g dest_other) ->
  other_grants_loop src_other dest_other true = true.
Proof.
  induction src_other as [| g rest IH]; intros Hincl; [reflexivity |].
  cbn [other_grants_loop].
  assert (Hg : contains g dest_other = true).
  { apply contains_spec, Hincl. left; reflexivity. }
  rewrite Hg. cbn [negb]. apply IH.
  intros g' Hin. apply Hincl. right; assumption.
Qed.

Section SameRecord.

Variable separate : list Grant -> string -> list Grant * list Grant.

(** A record with well-formed ACL data compared with itself: the answer is
    true exactly when the owner has at least one grant. *)
Lemma compare_acl_same_record (f : FileStat) (d : AclResponse)
    (owner : Owner) (id : string) (grants : list Grant) :
  acl_response_data f = Some d ->
  acl_Owner d = Some owner ->
  owner_ID owner = Some id ->
  acl_Grants d = Some grants ->
  compare_acl separate (Some f) (Some f) =
  Ok (nonempty (fst (separate grants id))).
Proof.
  intros Hacl Howner Hid Hgrants.
  unfold compare_acl; py_simpl.
  rewrite Hacl. cbn [acl_data_truthy]. unfold acl_truthy, getter.
  rewrite Howner, Hgrants. cbn [negb]. py_simpl. rewrite Hid. py_simpl.
  destruct (separate grants id) as [owner_grants other_grants].
  cbn [fst].
  destruct owner_grants as [| g owner_grants]; [reflexivity |].
  cbn [nonempty andb]. rewrite !Nat.eqb_refl.
  rewrite owner_grants_loop_same.
  - py_simpl.
    rewrite other_grants_loop_incl; [reflexivity | auto].
  - apply List.Forall_forall. intros i Hin.
    apply in_seq in Hin. lia.
Qed.

End SameRecord.

(** C1 fails on the code: [file_without_owner_grant] carries ACL data, and
    [compare_acl] of that record with itself returns false, because the
    owner comparison is skipped when there is no owner grant and
    [are_equal] keeps its initial value. *)
Theorem compare_acl_not_reflexive :
  acl_data_truthy (acl_response_data file_without_owner_grant) = true /\
  compare_acl separate_owner_grants
    (Some file_without_owner_grant) (Some file_without_owner_grant)
  = Ok false.
Proof.
  split; reflexivity.
Qed.

(** With at least one owner grant the comparison of a record with itself
    is true. *)
Lemma compare_acl_reflexive_with_owner_grant (f : FileStat)
    (d : AclResponse) (owner : Owner) (id : string) (grants : list Grant) :
  acl_response_data f = Some d ->
  acl_Owner d = Some owner ->
  owner_ID owner = Some id ->
  acl_Grants d = Some grants ->
  (exists g, In g grants /\ is_owner_grant id g = true) ->
  compare_acl separate_owner_grants (Some f) (Some f) = Ok true.
Proof.
  intros Hacl Howner Hid Hgrants (g & Hin & Hg).
  rewrite (compare_acl_same_record separate_owner_grants f d owner id grants)
    by assumption.
  unfold separate_owner_grants; cbn [fst].
  assert (Hf : In g (List.filter (is_owner_grant id) grants)).
  { apply filter_In. split; assumption. }
  destruct (List.filter (is_owner_grant id) grants);
    [contradiction | reflexivity].
Qed.

(** * Further properties of the module *)

(** ** The sort by permission *)

Lemma ltb_false_le (a b : string) : String.ltb a b = false -> String.le b a.
Proof.
  unfold String.ltb, String.le, String.leb.
  rewrite (String.compare_antisym b a).
  destruct (String.compare a b); cbn; intros H;
    [exact I | discriminate H | exact I].
Qed.

Lemma ltb_true_le (a b : string) : String.ltb a b = true -> String.le a b.
Proof.
  unfold String.ltb, String.le, String.leb.
  destruct (String.compare a b); cbn; intros H;
    [exact I | exact I | discriminate H].
Qed.

Lemma insert_by_Permission_perm (x : Grant) (l : list Grant) :
  Permutation (insert_by_Permission x l) (x :: l).
Proof.
  induction l as [| y l IH]; cbn [insert_by_Permission]; [reflexivity |].
  destruct (String.ltb _ _); [| reflexivity].
  rewrite IH. apply perm_swap.
Qed.

(** The sort only reorders the grants. *)
Lemma sort_by_Permission_perm (l : list Grant) :
  Permutation (sort_by_Permission l) l.
Proof.
  induction l as [| x l IH]; [reflexivity |].
  cbn [sort_by_Permission foldr]. fold (sort_by_Permission l).
  rewrite insert_by_Permission_perm. now rewrite IH.
Qed.

Lemma sort_by_Permission_length (l : list Grant) :
  length (sort_by_Permission l) = length l.
Proof. apply Permutation_length, sort_by_Permission_perm. Qed.

Lemma insert_by_Permission_HdRel (a : string) (x : Grant) (l : list Grant) :
  String.le a (get_Permission x) ->
  HdRel String.le a (map get_Permission l) ->
  HdRel String.le a (map get_Permission (insert_by_Permission x l)).
Proof.
  intros Hax Hl. destruct l as [| y l]; cbn [insert_by_Permission map].
  - constructor. exact Hax.
  - destruct (String.ltb _ _); cbn [map]; constructor; [| exact Hax].
    inversion Hl; assumption.
Qed.

Lemma insert_by_Permission_sorted (x : Grant) (l : list Grant) :
  Sorted String.le (map get_Permission l) ->
  Sorted String.le (map get_Permission (insert_by_Permission x l)).
Proof.
  induction l as [| y l IH]; intros Hs; cbn [insert_by_Permission map].
  - repeat constructor.
  - apply Sorted_inv in Hs as [Hs Hd].
    destruct (String.ltb (get_Permission y) (get_Permission x)) eqn:Hlt;
      cbn [map].
    + constructor; [apply IH, Hs |].
      apply insert_by_Permission_HdRel; [apply ltb_true_le, Hlt | exact Hd].
    + constructor; [constructor; assumption |].
      constructor. apply ltb_false_le, Hlt.
Qed.

(** After the sort the permissions are in increasing order. *)
Lemma sort_by_Permission_sorted (l : list Grant) :
  Sorted String.le (map get_Permission (sort_by_Permission l)).
Proof.
  induction l as [| x l IH]; [constructor |].
  cbn [sort_by_Permission foldr]. fold (sort_by_Permission l).
  apply insert_by_Permission_sorted, IH.
Qed.

(** Two grant lists have the same permissions after the sort exactly when
    their permissions are the same up to order. *)
Lemma sorted_Permissions_eq_iff (l1 l2 : list Grant) :
  map get_Permission (sort_by_Permission l1)
  = map get_Permission (sort_by_Permission l2)
  <-> Permutation (map get_Permission l1) (map get_Permission l2).
Proof.
  split.
  - intros Heq.
    rewrite <- (sort_by_Permission_perm l1), <- (sort_by_Permission_perm l2).
    now rewrite Heq.
  - intros Hperm.
    apply (Sorted_unique String.le); try apply sort_by_Permission_sorted.
    now rewrite !sort_by_Permission_perm.
Qed.

(** ** The two loops of [compare_acl] *)

Lemma owner_grants_loop_from (pre1 pre2 l1 l2 : list Grant) :
  length pre1 = length pre2 ->
  length l1 = length l2 ->
  owner_grants_loop (pre1 ++ l1) (pre2 ++ l2)
    (seq (length pre1) (length l1)) true
  = Ok (bool_decide (map get_Permission l1 = map get_Permission l2)).
Proof.
  revert pre1 pre2 l2.
  induction l1 as [| x l1 IH]; intros pre1 pre2 [| y l2] Hpre Hlen;
    try discriminate Hlen; [reflexivity |].
  cbn [length seq owner_grants_loop]. unfold index.
  rewrite (list_lookup_middle pre1 l1 x (length pre1) eq_refl).
  rewrite (list_lookup_middle pre2 l2 y (length pre1) Hpre).
  py_simpl.
  destruct (String.eqb_spec (get_Permission x) (get_Permission y))
    as [Heq | Hne]; cbn [negb].
  - specialize (IH (pre1 ++ [x]) (pre2 ++ [y]) l2).
    rewrite <- !app_assoc in IH. cbn [app] in IH.
    rewrite !length_app in IH. cbn [length] in IH.
    replace (length pre1 + 1)%nat with (S (length pre1)) in IH by lia.
    rewrite IH by (cbn in Hlen; lia).
    f_equal. cbn [map]. rewrite Heq.
    apply bool_decide_ext. split; intros H; [now f_equal | now inversion H].
  - f_equal. symmetry. apply bool_decide_eq_false.
    cbn [map]. intros H. inversion H. contradiction.
Qed.

Lemma owner_grants_loop_spec (l1 l2 : list Grant) :
  length l1 = length l2 ->
  owner_grants_loop l1 l2 (range (length l1)) true
  = Ok (bool_decide (map get_Permission l1 = map get_Permission l2)).
Proof.
  intros Hlen. exact (owner_grants_loop_from [] [] l1 l2 eq_refl Hlen).
Qed.

Lemma other_grants_loop_spec (src_other dest_other : list Grant) :
  other_grants_loop src_other dest_other true
  = forallb (fun g => contains g dest_other) src_other.
Proof.
  induction src_other as [| g rest IH]; [reflexivity |].
  cbn [other_grants_loop forallb].
  destruct (contains g dest_other); cbn [negb andb]; [exact IH | reflexivity].
Qed.

(** ** What [compare_acl] computes *)

Section AclComparison.

Variable separate : list Grant -> string -> list Grant * list Grant.

(** The eight facts that make the ACL data of two records well formed:
    each carries ['Owner'] with an ['ID'], and ['Grants']. *)
Lemma compare_acl_well_formed_eq (s d : FileStat) (ds dd : AclResponse)
    (os od : Owner) (ids idd : string) (gs gd : list Grant) :
  acl_response_data s = Some ds -> acl_Owner ds = Some os ->
  owner_ID os = Some ids -> acl_Grants ds = Some gs ->
  acl_response_data d = Some dd -> acl_Owner dd = Some od ->
  owner_ID od = Some idd -> acl_Grants dd = Some gd ->
  compare_acl separate (Some s) (Some d) =
  Ok (let src_owner := fst (separate gs ids) in
      let src_other := snd (separate gs ids) in
      let dest_owner := fst (separate gd idd) in
      let dest_other := snd (separate gd idd) in
      nonempty src_owner && nonempty dest_owner
      && (length src_owner =? length dest_owner)%nat
      && bool_decide (map get_Permission (sort_by_Permission src_owner)
                      = map get_Permission (sort_by_Permission dest_owner))
      && (length src_other =? length dest_other)%nat
      && forallb (fun g => contains g dest_other) src_other).
Proof.
  intros Hs Hos Hids Hgs Hd Hod Hidd Hgd.
  unfold compare_acl; py_simpl.
  rewrite Hs, Hd. cbn [acl_data_truthy]. unfold acl_truthy, getter.
  rewrite Hos, Hgs, Hod, Hgd. cbn [negb]. py_simpl.
  rewrite Hids, Hidd. py_simpl.
  destruct (separate gs ids) as [so sx], (separate gd idd) as [do dx].
  cbn [fst snd].
  destruct (nonempty so && nonempty do); cbn [andb]; [| reflexivity].
  destruct (Nat.eqb_spec (length so) (length do)) as [Hlen | Hlen];
    cbn [andb]; [| reflexivity].
  rewrite owner_grants_loop_spec
    by (rewrite !sort_by_Permission_length; exact Hlen).
  py_simpl.
  destruct (bool_decide _); cbn [andb]; [| reflexivity].
  destruct (length sx =? length dx)%nat; cbn [andb]; [| reflexivity].
  now rewrite other_grants_loop_spec.
Qed.

(** X1: On well-formed ACL data [compare_acl] always returns a boolean: the
    indexing of the two sorted owner lists stays in range. *)
Theorem compare_acl_returns (s d : FileStat) (ds dd : AclResponse)
    (os od : Owner) (ids idd : string) (gs gd : list Grant) :
  acl_response_data s = Some ds -> acl_Owner ds = Some os ->
  owner_ID os = Some ids -> acl_Grants ds = Some gs ->
  acl_response_data d = Some dd -> acl_Owner dd = Some od ->
  owner_ID od = Some idd -> acl_Grants dd = Some gd ->
  exists b : bool, compare_acl separate (Some s) (Some d) = Ok b.
Proof.
  intros Hs Hos Hids Hgs Hd Hod Hidd Hgd.
  rewrite (compare_acl_well_formed_eq s d ds dd os od ids idd gs gd)
    by assumption.
  eexists; reflexivity.
Qed.

(** The answer of [compare_acl] on well-formed ACL data, in terms of the
    two partitions. *)
Lemma compare_acl_true_spec (s d : FileStat) (ds dd : AclResponse)
    (os od : Owner) (ids idd : string) (gs gd : list Grant) :
  acl_response_data s = Some ds -> acl_Owner ds = Some os ->
  owner_ID os = Some ids -> acl_Grants ds = Some gs ->
  acl_response_data d = Some dd -> acl_Owner dd = Some od ->
  owner_ID od = Some idd -> acl_Grants dd = Some gd ->
  compare_acl separate (Some s) (Some d) = Ok true <->
  fst (separate gs ids) <> [] /\
  Permutation (map get_Permission (fst (separate gs ids)))
              (map get_Permission (fst (separate gd idd))) /\
  length (snd (separate gs ids)) = length (snd (separate gd idd)) /\
  (forall g, In g (snd (separate gs ids)) -> In g (snd (separate gd idd))).
Proof.
  intros Hs Hos Hids Hgs Hd Hod Hidd Hgd.
  rewrite (compare_acl_well_formed_eq s d ds dd os od ids idd gs gd)
    by assumption.
  cbv zeta.
  destruct (separate gs ids) as [so sx], (separate gd idd) as [do dx].
  cbn [fst snd]. split.
  - intros H. injection H as H.
    rewrite !andb_true_iff in H.
    destruct H as (((((Hso & Hdo) & Hlo) & Hperm) & Hlx) & Hall).
    repeat split.
    + intros ->. discriminate Hso.
    + apply sorted_Permissions_eq_iff.
      apply bool_decide_eq_true in Hperm. exact Hperm.
    + now apply Nat.eqb_eq.
    + intros g Hin. apply contains_spec.
      rewrite forallb_forall in Hall. apply Hall, Hin.
  - intros (Hne & Hperm & Hlen & Hincl). f_equal.
    assert (Hlo : length so = length do).
    { apply Permutation_length in Hperm. now rewrite !length_map in Hperm. }
    repeat (apply andb_true_intro; split).
    + destruct so; [contradiction | reflexivity].
    + destruct do; [| reflexivity].
      destruct so; [contradiction | discriminate Hlo].
    + now apply Nat.eqb_eq.
    + apply bool_decide_eq_true. now apply sorted_Permissions_eq_iff.
    + now apply Nat.eqb_eq.
    + apply forallb_forall. intros g Hin. apply contains_spec, Hincl, Hin.
Qed.

(** X2: [compare_acl] answers true exactly when the source has an owner grant,
    the permissions of the owner grants are the same on both sides up to
    order, the other grants are as many on both sides, and every other
    grant of the source occurs among those of the destination. *)
Theorem compare_acl_true_iff (s d : FileStat) (ds dd : AclResponse)
    (os od : Owner) (ids idd : string) (gs gd : list Grant) :
  acl_response_data s = Some ds -> acl_Owner ds = Some os ->
  owner_ID os = Some ids -> acl_Grants ds = Some gs ->
  acl_response_data d = Some dd -> acl_Owner dd = Some od ->
  owner_ID od = Some idd -> acl_Grants dd = Some gd ->
  compare_acl separate (Some s) (Some d) = Ok true <->
  fst (separate gs ids) <> [] /\
  Permutation (map get_Permission (fst (separate gs ids)))
              (map get_Permission (fst (separate gd idd))) /\
  length (snd (separate gs ids)) = length (snd (separate gd idd)) /\
  (forall g, In g (snd (separate gs ids)) -> In g (snd (separate gd idd))).
Proof. apply compare_acl_true_spec. Qed.

End AclComparison.

Lemma compare_acl_returns_witness :
  exists b : bool,
    compare_acl separate_owner_grants
      (Some (file_with_grants [grant_to "owner" "READ"]))
      (Some (file_with_grants [grant_to "owner" "WRITE"])) = Ok b.
Proof.
  apply (compare_acl_returns separate_owner_grants
           (file_with_grants [grant_to "owner" "READ"])
           (file_with_grants [grant_to "owner" "WRITE"])
           (acl_of [grant_to "owner" "READ"])
           (acl_of [grant_to "owner" "WRITE"])
           {| owner_ID := Some "owner"; owner_DisplayName := None |}
           {| owner_ID := Some "owner"; owner_DisplayName := None |}
           "owner" "owner"
           [grant_to "owner" "READ"] [grant_to "owner" "WRITE"]);
    reflexivity.
Defined.

Lemma compare_acl_true_iff_witness :
  compare_acl separate_owner_grants
    (Some (file_with_grants
             [grant_to "owner" "READ"; grant_to "owner" "WRITE"]))
    (Some (file_with_grants
             [grant_to "owner" "WRITE"; grant_to "owner" "READ"]))
  = Ok true <->
  fst (separate_owner_grants
         [grant_to "owner" "READ"; grant_to "owner" "WRITE"] "owner")
  <> [] /\
  Permutation
    (map get_Permission
       (fst (separate_owner_grants
               [grant_to "owner" "READ"; grant_to "owner" "WRITE"]
               "owner")))
    (map get_Permission
       (fst (separate_owner_grants
               [grant_to "owner" "WRITE"; grant_to "owner" "READ"]
               "owner"))) /\
  length (snd (separate_owner_grants
                 [grant_to "owner" "READ"; grant_to "owner" "WRITE"]
                 "owner"))
  = length (snd (separate_owner_grants
                   [grant_to "owner" "WRITE"; grant_to "owner" "READ"]
                   "owner")) /\
  (forall g,
     In g (snd (separate_owner_grants
                  [grant_to "owner" "READ"; grant_to "owner" "WRITE"]
                  "owner")) ->
     In g (snd (separate_owner_grants
                  [grant_to "owner" "WRITE"; grant_to "owner" "READ"]
                  "owner"))).
Proof.
  apply (compare_acl_true_iff separate_owner_grants
           (file_with_grants
              [grant_to "owner" "READ"; grant_to "owner" "WRITE"])
           (file_with_grants
              [grant_to "owner" "WRITE"; grant_to "owner" "READ"])
           (acl_of [grant_to "owner" "READ"; grant_to "owner" "WRITE"])
           (acl_of [grant_to "owner" "WRITE"; grant_to "owner" "READ"])
           {| owner_ID := Some "owner"; owner_DisplayName := None |}
           {| owner_ID := Some "owner"; owner_DisplayName := None |}
           "owner" "owner");
    reflexivity.
Defined.

Section AclEdges.

Variable separate : list Grant -> string -> list Grant * list Grant.

(** X3: When both records carry ACL data, the only exception [compare_acl] can
    raise is [KeyError], and it raises it exactly when one of the two
    responses lacks ['Owner'], the ['ID'] of the owner, or ['Grants']. *)
Theorem compare_acl_KeyError_iff (s d : FileStat) (ds dd : AclResponse) :
  acl_response_data s = Some ds -> acl_truthy ds = true ->
  acl_response_data d = Some dd -> acl_truthy dd = true ->
  (compare_acl separate (Some s) (Some d) = Raise KeyError
   <-> acl_complete ds && acl_complete dd = false) /\
  (forall e, compare_acl separate (Some s) (Some d) = Raise e ->
             e = KeyError).
Proof.
  intros Hs Hts Hd Htd.
  destruct (acl_complete ds && acl_complete dd) eqn:Hc.
  - apply andb_prop in Hc as [Hcs Hcd]. unfold acl_complete in Hcs, Hcd.
    destruct (acl_Owner ds) as [os |] eqn:Hos; [| discriminate Hcs].
    destruct (acl_Grants ds) as [gs |] eqn:Hgs; [| discriminate Hcs].
    destruct (acl_Owner dd) as [od |] eqn:Hod; [| discriminate Hcd].
    destruct (acl_Grants dd) as [gd |] eqn:Hgd; [| discriminate Hcd].
    apply bool_decide_eq_true in Hcs as [ids Hids].
    apply bool_decide_eq_true in Hcd as [idd Hidd].
    rewrite (compare_acl_well_formed_eq separate s d ds dd os od ids idd
               gs gd) by assumption.
    split.
    + split; intros H; discriminate H.
    + intros e H; discriminate H.
  - assert (Hraise : compare_acl separate (Some s) (Some d)
                     = Raise KeyError).
    { unfold compare_acl; py_simpl.
      rewrite Hs, Hd. cbn [acl_data_truthy]. rewrite Hts, Htd.
      cbn [negb]. unfold getter, acl_complete in *.
      destruct (acl_Owner ds) as [os |]; [| reflexivity].
      destruct (acl_Grants ds) as [gs |]; [| reflexivity].
      destruct (acl_Owner dd) as [od |]; [| reflexivity].
      destruct (acl_Grants dd) as [gd |]; [| reflexivity].
      py_simpl.
      destruct (owner_ID os) as [ids |]; [| reflexivity].
      py_simpl. destruct (separate gs ids) as [so sx].
      destruct (owner_ID od) as [idd |]; [| reflexivity].
      exfalso. cbn in Hc. discriminate Hc. }
    rewrite Hraise. split.
    + split; reflexivity.
    + intros e H. now injection H as <-.
Qed.

(** X4: An absent source raises [AttributeError].  An absent destination does
    so only when the source carries ACL data: without it the answer is
    true before the destination is looked at. *)
Theorem compare_acl_absent_record (s : FileStat)
    (dest_file : option FileStat) :
  compare_acl separate None dest_file = Raise AttributeError /\
  compare_acl separate (Some s) None =
  (if acl_data_truthy (acl_response_data s)
   then Raise AttributeError else Ok true).
Proof.
  split; [reflexivity |].
  unfold compare_acl; py_simpl.
  destruct (acl_data_truthy (acl_response_data s)); reflexivity.
Qed.

(** X5: When the other grants of the source are pairwise distinct, a true
    answer stays true with the two records exchanged. *)
Theorem compare_acl_symmetric_without_duplicates (s d : FileStat)
    (ds dd : AclResponse) (os od : Owner) (ids idd : string)
    (gs gd : list Grant) :
  acl_response_data s = Some ds -> acl_Owner ds = Some os ->
  owner_ID os = Some ids -> acl_Grants ds = Some gs ->
  acl_response_data d = Some dd -> acl_Owner dd = Some od ->
  owner_ID od = Some idd -> acl_Grants dd = Some gd ->
  List.NoDup (snd (separate gs ids)) ->
  compare_acl separate (Some s) (Some d) = Ok true ->
  compare_acl separate (Some d) (Some s) = Ok true.
Proof.
  intros Hs Hos Hids Hgs Hd Hod Hidd Hgd Hnodup Htrue.
  apply (compare_acl_true_spec separate s d ds dd os od ids idd gs gd)
    in Htrue; try assumption.
  destruct Htrue as (Hne & Hperm & Hlen & Hincl).
  apply (compare_acl_true_spec separate d s dd ds od os idd ids gd gs);
    try assumption.
  repeat split.
  - intros Hnil. rewrite Hnil in Hperm.
    apply Permutation_length in Hperm.
    destruct (fst (separate gs ids)); [contradiction | discriminate Hperm].
  - now symmetry.
  - now symmetry.
  - apply List.NoDup_length_incl; [exact Hnodup | lia | exact Hincl].
Qed.

End AclEdges.

Lemma compare_acl_KeyError_iff_witness :
  (compare_acl separate_owner_grants
     (Some (sample_file "upload" 1 0
              (Some {| acl_Owner := None; acl_Grants := Some [];
                       acl_other_keys := [] |})))
     (Some file_without_owner_grant) = Raise KeyError
   <-> acl_complete {| acl_Owner := None; acl_Grants := Some [];
                       acl_other_keys := [] |}
       && acl_complete (acl_of [grant_to "reader" "READ"]) = false) /\
  (forall e,
     compare_acl separate_owner_grants
       (Some (sample_file "upload" 1 0
                (Some {| acl_Owner := None; acl_Grants := Some [];
                         acl_other_keys := [] |})))
       (Some file_without_owner_grant) = Raise e ->
     e = KeyError).
Proof.
  apply (compare_acl_KeyError_iff separate_owner_grants
           (sample_file "upload" 1 0
              (Some {| acl_Owner := None; acl_Grants := Some [];
                       acl_other_keys := [] |}))
           file_without_owner_grant
           {| acl_Owner := None; acl_Grants := Some [];
              acl_other_keys := [] |}
           (acl_of [grant_to "reader" "READ"]));
    reflexivity.
Defined.

Lemma compare_acl_symmetric_without_duplicates_witness :
  compare_acl separate_owner_grants
    (Some (file_with_grants
             [grant_to "owner" "READ"; grant_to "reader" "READ"]))
    (Some (file_with_grants
             [grant_to "reader" "READ"; grant_to "owner" "READ"]))
  = Ok true.
Proof.
  apply (compare_acl_symmetric_without_duplicates separate_owner_grants
           (file_with_grants
              [grant_to "reader" "READ"; grant_to "owner" "READ"])
           (file_with_grants
              [grant_to "owner" "READ"; grant_to "reader" "READ"])
           (acl_of [grant_to "reader" "READ"; grant_to "owner" "READ"])
           (acl_of [grant_to "owner" "READ"; grant_to "reader" "READ"])
           {| owner_ID := Some "owner"; owner_DisplayName := None |}
           {| owner_ID := Some "owner"; owner_DisplayName := None |}
           "owner" "owner"
           [grant_to "reader" "READ"; grant_to "owner" "READ"]
           [grant_to "owner" "READ"; grant_to "reader" "READ"]);
    try reflexivity.
  vm_compute. constructor; [intros [] | constructor].
Defined.

(** X6: With a repeated grant the comparison depends on the side: the count of
    the other grants and their membership in the destination list are all
    that is checked, so [compare_acl] is not symmetric. *)
Theorem compare_acl_not_symmetric :
  exists a b : FileStat,
    compare_acl separate_owner_grants (Some a) (Some b) = Ok true /\
    compare_acl separate_owner_grants (Some b) (Some a) = Ok false.
Proof.
  exists (file_with_grants [grant_to "owner" "READ";
                            grant_to "reader" "READ";
                            grant_to "reader" "READ"]).
  exists (file_with_grants [grant_to "owner" "READ";
                            grant_to "reader" "READ";
                            grant_to "writer" "WRITE"]).
  split; reflexivity.
Qed.

(** ** Times and sizes *)

(** X7: the two tests that [compare_time] makes on
    [total_seconds (dest_time - src_time)] follow the order of the two
    instants, also for a negative difference, which a [timedelta] holds as
    negative [days] with [seconds] and [microseconds] that are not
    negative: [>= 0] holds exactly when the source is not later than the
    destination, [<= 0] exactly when it is not earlier. *)
Theorem total_seconds_sign (src_time dest_time : datetime) :
  (Qle_bool 0 (total_seconds (datetime_sub dest_time src_time)) = true
   <-> instant_us src_time <= instant_us dest_time) /\
  (Qle_bool (total_seconds (datetime_sub dest_time src_time)) 0 = true
   <-> instant_us dest_time <= instant_us src_time).
Proof.
  rewrite total_seconds_nonneg, total_seconds_nonpos, !Z.leb_le.
  split; split; lia.
Qed.

(** X8: The verdict on an upload (or copy) from [a] to [b] is the verdict on a
    download from [b] to [a]. *)
Theorem compare_time_upload_download_dual (a b : FileStat) :
  operation_name a = "upload" \/ operation_name a = "copy" ->
  operation_name b = "download" ->
  compare_time (Some a) (Some b) = compare_time (Some b) (Some a).
Proof.
  intros Ha Hb. rewrite !compare_time_eq, Hb.
  cbn [String.eqb Ascii.eqb Bool.eqb orb].
  destruct Ha as [-> | ->]; cbn [String.eqb Ascii.eqb Bool.eqb orb];
    do 2 f_equal; apply eq_iff_eq_true;
    rewrite !Z.leb_le; lia.
Qed.

Lemma compare_time_upload_download_dual_witness :
  compare_time (Some (sample_file "upload" 1 10 None))
               (Some (sample_file "download" 1 25 None))
  = compare_time (Some (sample_file "download" 1 25 None))
                 (Some (sample_file "upload" 1 10 None)).
Proof.
  apply (compare_time_upload_download_dual
           (sample_file "upload" 1 10 None)
           (sample_file "download" 1 25 None)).
  - left; reflexivity.
  - reflexivity.
Defined.

(** X9: For two upload (or copy) records, one of the two orders always needs
    no update, and both need none exactly when the instants are equal. *)
Theorem compare_time_upload_exchange (a b : FileStat) :
  operation_name a = "upload" \/ operation_name a = "copy" ->
  operation_name b = "upload" \/ operation_name b = "copy" ->
  (compare_time (Some a) (Some b) = Ok (Some true) \/
   compare_time (Some b) (Some a) = Ok (Some true)) /\
  (compare_time (Some a) (Some b) = Ok (Some true) /\
   compare_time (Some b) (Some a) = Ok (Some true)
   <-> instant_us (last_update a) = instant_us (last_update b)).
Proof.
  intros Ha Hb. rewrite !compare_time_eq.
  assert (Hopa : (operation_name a =? "upload")%string
                 || (operation_name a =? "copy")%string = true)
    by (destruct Ha as [-> | ->]; reflexivity).
  assert (Hopb : (operation_name b =? "upload")%string
                 || (operation_name b =? "copy")%string = true)
    by (destruct Hb as [-> | ->]; reflexivity).
  rewrite Hopa, Hopb.
  set (ta := instant_us (last_update a)).
  set (tb := instant_us (last_update b)).
  destruct (Z.leb_spec 0 (tb - ta)), (Z.leb_spec 0 (ta - tb)); split;
    try (left; reflexivity); try (right; reflexivity); try lia;
    split; try lia; try (intros [H1 H2]; discriminate);
    intros _; split; reflexivity.
Qed.

Lemma compare_time_upload_exchange_witness :
  (compare_time (Some (sample_file "upload" 1 10 None))
                (Some (sample_file "copy" 1 25 None)) = Ok (Some true) \/
   compare_time (Some (sample_file "copy" 1 25 None))
                (Some (sample_file "upload" 1 10 None)) = Ok (Some true)) /\
  (compare_time (Some (sample_file "upload" 1 10 None))
                (Some (sample_file "copy" 1 25 None)) = Ok (Some true) /\
   compare_time (Some (sample_file "copy" 1 25 None))
                (Some (sample_file "upload" 1 10 None)) = Ok (Some true)
   <-> 10 = 25).
Proof.
  apply (compare_time_upload_exchange
           (sample_file "upload" 1 10 None)
           (sample_file "copy" 1 25 None)).
  - left; reflexivity.
  - right; reflexivity.
Defined.

(** X10: [compare_size] does not depend on the order of its arguments, and it
    raises, with [AttributeError], exactly when a record is absent. *)
Theorem compare_size_symmetric (a b : option FileStat) :
  compare_size a b = compare_size b a /\
  (compare_size a b = Raise AttributeError <-> a = None \/ b = None) /\
  (forall x y : FileStat,
     compare_size (Some x) (Some y) = Ok true <-> size x = size y).
Proof.
  unfold compare_size. split; [| split].
  - destruct a as [x |], b as [y |]; py_simpl; try reflexivity.
    now rewrite Z.eqb_sym.
  - destruct a as [x |], b as [y |]; py_simpl; split;
      try (intros H; discriminate H); try reflexivity;
      try (intros [H | H]; discriminate H); auto.
  - intros x y. py_simpl. split.
    + intros H. injection H as H. now apply Z.eqb_eq.
    + intros H. f_equal. now apply Z.eqb_eq.
Qed.

(** ** Decisions of the strategies *)

Section MoreDecisions.

Variable separate : list Grant -> string -> list Grant * list Grant.

Lemma SizeAndLastModifiedSync_sync_object (self : Strategy)
    (s d : FileStat) (r : SyncResponse) :
  strategy_class self = SizeAndLastModifiedSync ->
  determine_should_sync separate self (Some s) (Some d) = Ok r ->
  exists same_time : option bool,
    compare_time (Some s) (Some d) = Ok same_time /\
    sync_object r = negb (size s =? size d) || py_not same_time.
Proof.
  intros Hcls. unfold determine_should_sync, _determine_should_sync.
  rewrite Hcls, SizeAndLastModifiedSync_eq, compare_time_eq.
  unfold compare_size; py_simpl.
  intros Hr. eexists. split; [reflexivity |].
  destruct (include_acl self); cbn [mbind pyresult_bind pybind] in Hr.
  - destruct (compare_acl separate _ _); cbn [mbind pyresult_bind pybind] in Hr;
      [| discriminate Hr].
    injection Hr as <-. reflexivity.
  - injection Hr as <-. reflexivity.
Qed.

(** X11: With [include_acl] off, [SizeAndLastModifiedSync] returns on every pair
    of present records, whatever their ACL data, and never asks for an ACL
    update. *)
Theorem SizeAndLastModifiedSync_without_acl (self : Strategy)
    (s d : FileStat) :
  strategy_class self = SizeAndLastModifiedSync ->
  include_acl self = false ->
  exists r : SyncResponse,
    determine_should_sync separate self (Some s) (Some d) = Ok r /\
    sync_acl r = false.
Proof.
  intros Hcls Hacl. unfold determine_should_sync, _determine_should_sync.
  rewrite Hcls, Hacl, SizeAndLastModifiedSync_eq, compare_time_eq.
  unfold compare_size; py_simpl.
  eexists. split; reflexivity.
Qed.

(** X12: [SizeAndLastModifiedSync] decides not to transfer exactly when the
    sizes are equal and [compare_time] answers true. *)
Theorem SizeAndLastModifiedSync_no_transfer_iff (self : Strategy)
    (s d : FileStat) (r : SyncResponse) :
  strategy_class self = SizeAndLastModifiedSync ->
  determine_should_sync separate self (Some s) (Some d) = Ok r ->
  (sync_object r = false <->
   size s = size d /\ compare_time (Some s) (Some d) = Ok (Some true)).
Proof.
  intros Hcls Hr.
  destruct (SizeAndLastModifiedSync_sync_object self s d r Hcls Hr)
    as (same_time & Htime & ->).
  rewrite Htime. split.
  - intros H. apply orb_false_elim in H as [Hsize Hnot].
    apply negb_false_iff, Z.eqb_eq in Hsize.
    split; [exact Hsize |].
    destruct same_time as [[|] |]; try discriminate Hnot. reflexivity.
  - intros [Hsize Heq]. injection Heq as ->.
    apply Z.eqb_eq in Hsize. rewrite Hsize. reflexivity.
Qed.

(** X13: For an operation other than upload, copy and download, [compare_time]
    gives no answer and [SizeAndLastModifiedSync] always transfers. *)
Theorem SizeAndLastModifiedSync_unknown_operation (self : Strategy)
    (s d : FileStat) (r : SyncResponse) :
  strategy_class self = SizeAndLastModifiedSync ->
  operation_name s <> "upload" ->
  operation_name s <> "copy" ->
  operation_name s <> "download" ->
  determine_should_sync separate self (Some s) (Some d) = Ok r ->
  sync_object r = true.
Proof.
  intros Hcls Hu Hc Hd Hr.
  destruct (SizeAndLastModifiedSync_sync_object self s d r Hcls Hr)
    as (same_time & Htime & ->).
  rewrite compare_time_eq in Htime.
  apply String.eqb_neq in Hu, Hc, Hd. rewrite Hu, Hc, Hd in Htime.
  injection Htime as <-. apply orb_true_r.
Qed.

(** X14: A record compared with itself under upload, copy or download needs no
    transfer. *)
Theorem SizeAndLastModifiedSync_same_record (self : Strategy)
    (f : FileStat) (r : SyncResponse) :
  strategy_class self = SizeAndLastModifiedSync ->
  operation_name f = "upload" \/ operation_name f = "copy" \/
  operation_name f = "download" ->
  determine_should_sync separate self (Some f) (Some f) = Ok r ->
  sync_object r = false.
Proof.
  intros Hcls Hop Hr.
  destruct (SizeAndLastModifiedSync_sync_object self f f r Hcls Hr)
    as (same_time & Htime & ->).
  rewrite compare_time_eq, Z.sub_diag in Htime.
  rewrite Z.eqb_refl.
  destruct Hop as [Hop | [Hop | Hop]]; rewrite Hop in Htime;
    injection Htime as <-; reflexivity.
Qed.

(** X15: [SizeAndLastModifiedSync] raises [AttributeError] as soon as one of
    the two records is absent. *)
Theorem SizeAndLastModifiedSync_absent_record (self : Strategy)
    (src_file dest_file : option FileStat) :
  strategy_class self = SizeAndLastModifiedSync ->
  src_file = None \/ dest_file = None ->
  determine_should_sync separate self src_file dest_file
  = Raise AttributeError.
Proof.
  intros Hcls Habsent. unfold determine_should_sync, _determine_should_sync.
  rewrite Hcls. unfold SizeAndLastModifiedSync_determine_should_sync.
  destruct src_file as [s |]; [| reflexivity].
  destruct Habsent as [H | ->]; [discriminate H | reflexivity].
Qed.

(** X16: When either record has no ACL data, [SizeAndLastModifiedSync] returns
    and asks for no ACL update, with [include_acl] on or off. *)
Theorem SizeAndLastModifiedSync_missing_acl (self : Strategy)
    (s d : FileStat) :
  strategy_class self = SizeAndLastModifiedSync ->
  acl_data_truthy (acl_response_data s) = false \/
  acl_data_truthy (acl_response_data d) = false ->
  exists r : SyncResponse,
    determine_should_sync separate self (Some s) (Some d) = Ok r /\
    sync_acl r = false.
Proof.
  intros Hcls Habsent. unfold determine_should_sync, _determine_should_sync.
  rewrite Hcls, SizeAndLastModifiedSync_eq, compare_time_eq.
  unfold compare_size; py_simpl.
  assert (Hacl : compare_acl separate (Some s) (Some d) = Ok true).
  { unfold compare_acl; py_simpl.
    destruct (acl_data_truthy (acl_response_data s)); cbn [negb];
      [| reflexivity].
    destruct Habsent as [H | ->]; [discriminate H | reflexivity]. }
  rewrite Hacl.
  destruct (include_acl self); py_simpl; eexists; split; reflexivity.
Qed.

(** X17: [MissingFileSync] looks at the source only: it raises
    [AttributeError] when the source is absent and otherwise transfers,
    whatever the destination is. *)
Theorem MissingFileSync_by_source (self : Strategy)
    (src_file dest_file : option FileStat) :
  strategy_class self = MissingFileSync ->
  determine_should_sync separate self src_file dest_file =
  match src_file with
  | Some _ => Ok {| sync_object := true; sync_acl := include_acl self |}
  | None => Raise AttributeError
  end.
Proof.
  intros Hcls. unfold determine_should_sync, _determine_should_sync.
  rewrite Hcls. destruct src_file; reflexivity.
Qed.

(** X18: As a truth value ([__bool__]) a decision of [NeverSync] is false and a
    decision of [MissingFileSync] is true; a decision of
    [SizeAndLastModifiedSync] is false exactly when it asks for neither a
    transfer nor an ACL update. *)
Theorem decision_truth_value (self : Strategy)
    (src_file dest_file : option FileStat) (r : SyncResponse) :
  determine_should_sync separate self src_file dest_file = Ok r ->
  match strategy_class self with
  | NeverSync => SyncResponse_bool r = false
  | MissingFileSync => SyncResponse_bool r = true
  | _ => SyncResponse_bool r = false <->
         sync_object r = false /\ sync_acl r = false
  end.
Proof.
  unfold determine_should_sync, _determine_should_sync.
  destruct (strategy_class self); intros Hr.
  - apply orb_false_iff.
  - apply orb_false_iff.
  - injection Hr as <-. reflexivity.
  - destruct src_file; [| discriminate Hr]. injection Hr as <-. reflexivity.
Qed.

End MoreDecisions.

Lemma SizeAndLastModifiedSync_without_acl_witness :
  exists r : SyncResponse,
    determine_should_sync separate_owner_grants
      (strategy_of SizeAndLastModifiedSync false)
      (Some file_without_owner_grant)
      (Some (sample_file "upload" 100 5
               (Some {| acl_Owner := None; acl_Grants := None;
                        acl_other_keys := ["ResponseMetadata"] |})))
    = Ok r /\ sync_acl r = false.
Proof.
  apply (SizeAndLastModifiedSync_without_acl separate_owner_grants
           (strategy_of SizeAndLastModifiedSync false)
           file_without_owner_grant
           (sample_file "upload" 100 5
              (Some {| acl_Owner := None; acl_Grants := None;
                       acl_other_keys := ["ResponseMetadata"] |})));
    reflexivity.
Defined.

Lemma SizeAndLastModifiedSync_no_transfer_iff_witness :
  sync_object {| sync_object := false; sync_acl := false |} = false <->
  100 = 100 /\
  compare_time (Some (sample_file "upload" 100 7 None))
               (Some (sample_file "upload" 100 9 None)) = Ok (Some true).
Proof.
  apply (SizeAndLastModifiedSync_no_transfer_iff separate_owner_grants
           (strategy_of SizeAndLastModifiedSync true)
           (sample_file "upload" 100 7 None)
           (sample_file "upload" 100 9 None)
           {| sync_object := false; sync_acl := false |});
    reflexivity.
Defined.

Lemma SizeAndLastModifiedSync_unknown_operation_witness :
  sync_object {| sync_object := true; sync_acl := false |} = true.
Proof.
  apply (SizeAndLastModifiedSync_unknown_operation separate_owner_grants
           (strategy_of SizeAndLastModifiedSync false)
           (sample_file "move" 100 7 None)
           (sample_file "move" 100 7 None)
           {| sync_object := true; sync_acl := false |});
    try reflexivity; discriminate.
Defined.

Lemma SizeAndLastModifiedSync_same_record_witness :
  sync_object {| sync_object := false; sync_acl := false |} = false.
Proof.
  apply (SizeAndLastModifiedSync_same_record separate_owner_grants
           (strategy_of SizeAndLastModifiedSync false)
           (sample_file "download" 100 7 None)
           {| sync_object := false; sync_acl := false |}).
  - reflexivity.
  - right; right; reflexivity.
  - reflexivity.
Defined.

Lemma SizeAndLastModifiedSync_absent_record_witness :
  determine_should_sync separate_owner_grants
    (strategy_of SizeAndLastModifiedSync false)
    (Some file_without_owner_grant) None
  = Raise AttributeError.
Proof.
  apply (SizeAndLastModifiedSync_absent_record separate_owner_grants
           (strategy_of SizeAndLastModifiedSync false)
           (Some file_without_owner_grant) None).
  - reflexivity.
  - right; reflexivity.
Defined.

Lemma SizeAndLastModifiedSync_missing_acl_witness :
  exists r : SyncResponse,
    determine_should_sync separate_owner_grants
      (strategy_of SizeAndLastModifiedSync true)
      (Some file_without_owner_grant)
      (Some (sample_file "upload" 100 5 None))
    = Ok r /\ sync_acl r = false.
Proof.
  apply (SizeAndLastModifiedSync_missing_acl separate_owner_grants
           (strategy_of SizeAndLastModifiedSync true)
           file_without_owner_grant
           (sample_file "upload" 100 5 None)).
  - reflexivity.
  - right; reflexivity.
Defined.

Lemma MissingFileSync_by_source_witness :
  determine_should_sync separate_owner_grants
    (strategy_of MissingFileSync false)
    None (Some file_without_owner_grant)
  = Raise AttributeError.
Proof.
  apply (MissingFileSync_by_source separate_owner_grants
           (strategy_of MissingFileSync false)
           None (Some file_without_owner_grant)).
  reflexivity.
Defined.

Lemma decision_truth_value_witness :
  SyncResponse_bool {| sync_object := true; sync_acl := false |} = true.
Proof.
  apply (decision_truth_value separate_owner_grants
           (strategy_of MissingFileSync false)
           (Some file_without_owner_grant) None
           {| sync_object := true; sync_acl := false |}).
  reflexivity.
Defined.

(** ** Construction *)

(** The fields of a strategy that [new] returns. *)
Lemma new_fields (cls : StrategyClass) (argument : option Argument)
    (requested : option string) (self : Strategy) :
  new cls argument requested = Ok self ->
  strategy_class self = cls /\
  ARGUMENT self = argument /\
  In (sync_type self) VALID_SYNC_TYPES /\
  sync_type self = default (default_sync_type cls) requested /\
  include_acl self = false.
Proof.
  unfold new, BaseSync_init, _check_sync_type.
  set (st := default (default_sync_type cls) requested).
  destruct (existsb (String.eqb st) VALID_SYNC_TYPES) eqn:Hvalid;
    cbn [negb]; py_simpl; intros H; [| discriminate H].
  injection H as <-. cbn.
  repeat split. apply valid_sync_type_spec, Hvalid.
Qed.

(** X19: A constructed strategy is of the class asked for, carries the
    [ARGUMENT] of that class, has a [sync_type] of [VALID_SYNC_TYPES], and
    starts with [include_acl] off. *)
Theorem new_invariant (cls : StrategyClass) (argument : option Argument)
    (requested : option string) (self : Strategy) :
  new cls argument requested = Ok self ->
  strategy_class self = cls /\
  ARGUMENT self = argument /\
  In (sync_type self) VALID_SYNC_TYPES /\
  sync_type self = default (default_sync_type cls) requested /\
  include_acl self = false.
Proof. apply new_fields. Qed.

Lemma new_invariant_witness :
  strategy_class (strategy_of NeverSync false) = NeverSync /\
  ARGUMENT (strategy_of NeverSync false) = None /\
  In (sync_type (strategy_of NeverSync false)) VALID_SYNC_TYPES /\
  sync_type (strategy_of NeverSync false)
  = default (default_sync_type NeverSync) None /\
  include_acl (strategy_of NeverSync false) = false.
Proof.
  apply (new_invariant NeverSync None None (strategy_of NeverSync false)).
  reflexivity.
Defined.

(** X20: Every class of the module can be constructed without a [sync_type]:
    the default of each [__init__] passes the check. *)
Theorem new_without_sync_type (cls : StrategyClass)
    (argument : option Argument) :
  exists self : Strategy,
    new cls argument None = Ok self /\
    sync_type self = default_sync_type cls /\
    In (default_sync_type cls) VALID_SYNC_TYPES.
Proof.
  destruct cls; eexists; (split; [reflexivity | split; [reflexivity |]]);
    cbn; auto.
Qed.

Section FreshStrategy.

Variable separate : list Grant -> string -> list Grant * list Grant.

(** X21: A [SizeAndLastModifiedSync] used as constructed, before anything sets
    [include_acl], decides on every pair of present records and never asks
    for an ACL update. *)
Theorem fresh_SizeAndLastModifiedSync_no_acl (argument : option Argument)
    (requested : option string) (self : Strategy) (s d : FileStat) :
  new SizeAndLastModifiedSync argument requested = Ok self ->
  exists r : SyncResponse,
    determine_should_sync separate self (Some s) (Some d) = Ok r /\
    sync_acl r = false.
Proof.
  intros Hnew.
  destruct (new_fields _ _ _ _ Hnew) as (Hcls & _ & _ & _ & Hacl).
  unfold determine_should_sync, _determine_should_sync.
  rewrite Hcls, Hacl, SizeAndLastModifiedSync_eq, compare_time_eq.
  unfold compare_size; py_simpl.
  eexists. split; reflexivity.
Qed.

End FreshStrategy.

Lemma fresh_SizeAndLastModifiedSync_no_acl_witness :
  exists r : SyncResponse,
    determine_should_sync separate_owner_grants
      (strategy_of SizeAndLastModifiedSync false)
      (Some file_without_owner_grant) (Some file_without_owner_grant)
    = Ok r /\ sync_acl r = false.
Proof.
  apply (fresh_SizeAndLastModifiedSync_no_acl separate_owner_grants
           None None (strategy_of SizeAndLastModifiedSync false)
           file_without_owner_grant file_without_owner_grant).
  reflexivity.
Defined.

(** ** Selection *)


(** X23: A strategy whose [add_sync_argument] leaves the argument table as it
    is has no [ARGUMENT], and [use_sync_strategy] never selects it. *)
Theorem undeclared_strategy_never_selected (self : Strategy)
    (arg_table : list Argument) (params : gmap string PyValue) :
  add_sync_argument self arg_table = arg_table ->
  ARGUMENT self = None /\ use_sync_strategy self params = None.
Proof.
  unfold add_sync_argument, use_sync_strategy, arg_dest, arg_name.
  destruct (ARGUMENT self) as [argument |]; intros H.
  - apply (f_equal (@length Argument)) in H.
    rewrite length_app in H. cbn in H. lia.
  - split; reflexivity.
Qed.

Lemma undeclared_strategy_never_selected_witness :
  ARGUMENT (strategy_of NeverSync false) = None /\
  use_sync_strategy (strategy_of NeverSync false)
    {[ "never_sync" := PyBool true ]} = None.
Proof.
  apply (undeclared_strategy_never_selected (strategy_of NeverSync false)
           [] {[ "never_sync" := PyBool true ]}).
  reflexivity.
Defined.

Lemma replace_not_in (old new : ascii) (s : string) :
  old <> new -> ~ In old (list_ascii_of_string (replace old new s)).
Proof.
  intros Hne. induction s as [| c s IH]; cbn [replace list_ascii_of_string];
    [intros [] |].
  intros [Hc | Hin]; [| exact (IH Hin)].
  destruct (Ascii.eqb_spec c old) as [-> | Hco]; congruence.
Qed.

(** X24: When the strategy is selected by the [name] of its argument, a
    parameter stored under a key that contains a dash is never consulted:
    setting it changes nothing. *)
Theorem use_sync_strategy_ignores_dashed_key (self : Strategy)
    (params : gmap string PyValue) (k : string) (v : PyValue) :
  arg_dest self = None ->
  In "-"%char (list_ascii_of_string k) ->
  use_sync_strategy self (<[k:=v]> params) = use_sync_strategy self params.
Proof.
  intros Hdest Hdash. unfold use_sync_strategy, params_get. rewrite Hdest.
  destruct (arg_name self) as [n |]; [| reflexivity].
  rewrite lookup_insert_ne; [reflexivity |].
  intros ->. revert Hdash. apply replace_not_in. discriminate.
Qed.

Lemma use_sync_strategy_ignores_dashed_key_witness :
  use_sync_strategy my_flag_strategy
    (<["my-flag" := PyBool true]> {[ "my_flag" := PyBool false ]})
  = use_sync_strategy my_flag_strategy {[ "my_flag" := PyBool false ]}.
Proof.
  apply (use_sync_strategy_ignores_dashed_key my_flag_strategy
           {[ "my_flag" := PyBool false ]} "my-flag" (PyBool true)).
  - reflexivity.
  - right; right; left; reflexivity.
Defined.
